(** * PDF-chat: the document session and the chat window controller

    A shallow embedding of [PDF-chat.py].  The three remote operations of the
    Gemini client ([files.upload], [files.delete], [models.generate_content])
    are an interface whose implementation lives outside the program: they are
    taken as a [Client] over an arbitrary provider state, and every call that
    reaches the provider is recorded in a trace.  Python exceptions are
    modelled by a result type, and the methods of [SimpleQASystem] by a state
    and exception monad over the object's fields and the outside world. *)

From Stdlib Require Import String Ascii List ZArith Bool Lia.
Import ListNotations.
Open Scope string_scope.

(** ** Exceptions *)

(** The exception classes the program distinguishes.  All three are
    subclasses of [Exception]; only the first is a [google.genai] [APIError].
    [OtherException] stands for any other [Exception] a call may raise, for
    instance an [httpx] transport error when the network is down. *)
Inductive exn : Type :=
| APIError (detail : string)
| ValueError (detail : string)
| OtherException (detail : string).

(** [str(e)], as the f-strings of the program print it. *)
Definition str (e : exn) : string :=
  match e with
  | APIError d => d
  | ValueError d => d
  | OtherException d => d
  end.

(** [isinstance(e, APIError)]: what [except APIError] selects. *)
Definition is_APIError (e : exn) : bool :=
  match e with
  | APIError _ => true
  | _ => false
  end.

(** The outcome of running a piece of Python: it returns or it raises. *)
Inductive result (A : Type) : Type :=
| Return (a : A)
| Raise (e : exn).
Arguments Return {A} a.
Arguments Raise {A} e.

Definition raised {A : Type} (r : result A) : bool :=
  match r with
  | Return _ => false
  | Raise _ => true
  end.

(** ** The provider boundary *)

(** The file object the upload endpoint returns; the program reads only its
    [name]. *)
Record File : Type := mkFile { name : string }.

(** A call that reached the provider. *)
Inductive Call : Type :=
| FilesUpload (file : string)
| FilesDelete (file_name : string)
| GenerateContent (model : string) (file_ref : File) (prompt : string).

Definition is_delete (c : Call) : bool :=
  match c with
  | FilesDelete _ => true
  | _ => false
  end.

Definition is_upload (c : Call) : bool :=
  match c with
  | FilesUpload _ => true
  | _ => false
  end.

Definition is_generate (c : Call) : bool :=
  match c with
  | GenerateContent _ _ _ => true
  | _ => false
  end.

(** Number of calls of one kind in a trace. *)
Definition count (k : Call -> bool) (tr : list Call) : nat :=
  length (filter k tr).

(** [genai.Client]: the three operations, each a step of the provider from
    one state to the next that returns a value or raises.
    [generate_content] yields the [text] of the response. *)
Record Client (P : Type) : Type := mkClient {
  files_upload : string -> P -> result File * P;
  files_delete : string -> P -> result unit * P;
  generate_content : string -> File -> string -> P -> result string * P
}.
Arguments mkClient {P} _ _ _.
Arguments files_upload {P} _ _ _.
Arguments files_delete {P} _ _ _.
Arguments generate_content {P} _ _ _ _ _.

(** ** SimpleQASystem *)

(** The fields of the object that change or are read after construction
    (the client itself is fixed). *)
Record SimpleQASystem : Type := mkQA {
  uploaded_file_ref : option File;
  llm_model : string
}.

(** What lies outside the object: the provider, the calls made to it so far
    (oldest first) and the lines printed so far. *)
Record World (P : Type) : Type := mkWorld {
  provider : P;
  calls : list Call;
  stdout : list string
}.
Arguments mkWorld {P} _ _ _.
Arguments provider {P} _.
Arguments calls {P} _.
Arguments stdout {P} _.

Record St (P : Type) : Type := mkSt {
  self : SimpleQASystem;
  world : World P
}.
Arguments mkSt {P} _ _.
Arguments self {P} _.
Arguments world {P} _.

(** [SimpleQASystem.__init__]: a falsy key ([None] or the empty string)
    raises [ValueError]; otherwise no file is held and the model is fixed. *)
Definition falsy (api_key : option string) : bool :=
  match api_key with
  | None => true
  | Some "" => true
  | Some _ => false
  end.

Definition SimpleQASystem_init (api_key : option string) : result SimpleQASystem :=
  if falsy api_key then Raise (ValueError "API Key is missing.")
  else Return (mkQA None "gemini-2.5-flash").

(** ** The monad of method bodies *)

Definition M (P A : Type) : Type := St P -> result A * St P.

Definition ret {P A : Type} (a : A) : M P A := fun st => (Return a, st).

Definition bind {P A B : Type} (m : M P A) (k : A -> M P B) : M P B :=
  fun st =>
    match m st with
    | (Return a, st') => k a st'
    | (Raise e, st') => (Raise e, st')
    end.

Declare Scope py_scope.
Delimit Scope py_scope with py.
Notation "x <- m ;; k" := (bind m (fun x => k))
  (at level 61, m at next level, right associativity) : py_scope.
Notation "m ;; k" := (bind m (fun _ => k))
  (at level 61, right associativity) : py_scope.
Open Scope py_scope.

(** [try: body / except C as e: handler]: [handler e] is [None] when no
    [except] clause matches [e], and the exception goes on. *)
Definition try_except {P A : Type} (body : M P A) (handler : exn -> option (M P A))
  : M P A :=
  fun st =>
    match body st with
    | (Return a, st') => (Return a, st')
    | (Raise e, st') =>
        match handler e with
        | Some h => h st'
        | None => (Raise e, st')
        end
    end.

(** [try: body / finally: final]: [final] runs on every path; an exception
    it did not replace is raised again afterwards. *)
Definition try_finally {P A : Type} (body : M P A) (final : M P unit) : M P A :=
  fun st =>
    match body st with
    | (r, st') =>
        match final st' with
        | (Return _, st'') => (r, st'')
        | (Raise e, st'') => (Raise e, st'')
        end
    end.

Definition get_uploaded_file_ref {P : Type} : M P (option File) :=
  fun st => (Return (uploaded_file_ref (self st)), st).

Definition set_uploaded_file_ref {P : Type} (v : option File) : M P unit :=
  fun st => (Return tt, mkSt (mkQA v (llm_model (self st))) (world st)).

Definition get_llm_model {P : Type} : M P string :=
  fun st => (Return (llm_model (self st)), st).

Definition print {P : Type} (line : string) : M P unit :=
  fun st =>
    (Return tt,
     mkSt (self st)
       (mkWorld (provider (world st)) (calls (world st)) (stdout (world st) ++ [line]))).

(** A remote call: the provider steps, and the call is appended to the trace
    whether it returns or raises. *)
Definition remote {P A : Type} (c : Call) (op : P -> result A * P) : M P A :=
  fun st =>
    let (r, p') := op (provider (world st)) in
    (r, mkSt (self st) (mkWorld p' (calls (world st) ++ [c]) (stdout (world st)))).

Section Session.

Context {P : Type} (client : Client P).

(** [self.client.files.delete(name=...)] *)
Definition client_files_delete (file_name : string) : M P unit :=
  remote (FilesDelete file_name) (files_delete client file_name).

(** [self.client.files.upload(file=...)] *)
Definition client_files_upload (pdf_path : string) : M P File :=
  remote (FilesUpload pdf_path) (files_upload client pdf_path).

(** [self.client.models.generate_content(model=..., contents=[ref, question]).text] *)
Definition client_generate_content (model : string) (ref : File) (question : string)
  : M P string :=
  remote (GenerateContent model ref question) (generate_content client model ref question).

(** [SimpleQASystem.cleanup_file] *)
Definition cleanup_file : M P unit :=
  ref <- get_uploaded_file_ref ;;
  match ref with
  | Some f =>
      try_finally
        (try_except
           (client_files_delete (name f) ;;
            print ("Cleaned up file: " ++ name f))
           (fun e =>
              if is_APIError e
              then Some (print ("Error cleaning up file: " ++ str e))
              else None))
        (set_uploaded_file_ref None)
  | None => ret tt
  end.

(** [SimpleQASystem.upload_pdf]: the cleanup runs before the [try]; the
    [try] has a clause for [APIError] and one for every [Exception]. *)
Definition upload_pdf (pdf_path : string) : M P bool :=
  cleanup_file ;;
  try_except
    (f <- client_files_upload pdf_path ;;
     set_uploaded_file_ref (Some f) ;;
     ret true)
    (fun e =>
       if is_APIError e
       then Some (print ("Gemini API Error during file upload: " ++ str e) ;;
                  ret false)
       else Some (print ("An unexpected error occurred: " ++ str e) ;;
                  ret false)).

Definition no_document : string :=
  "Error: No document has been successfully uploaded.".

(** [SimpleQASystem.ask_question]: the [try] has a clause for [APIError]
    only. *)
Definition ask_question (question : string) : M P string :=
  ref <- get_uploaded_file_ref ;;
  match ref with
  | None => ret no_document
  | Some f =>
      try_except
        (model <- get_llm_model ;;
         client_generate_content model f question)
        (fun e =>
           if is_APIError e
           then Some (ret ("Gemini API Error during generation: " ++ str e))
           else None)
  end.

(** ** Worker *)

(** The two shapes of worker the window creates: [task_type] with its one
    keyword argument. *)
Inductive Worker : Type :=
| upload_pdf_task (pdf_path : string)
| ask_question_task (question : string).

(** [Worker.run]: the value is the pair handed to [self.result.emit]; there
    is no [try] around the session call. *)
Definition run (w : Worker) : M P (string * bool) :=
  match w with
  | upload_pdf_task pdf_path =>
      success <- upload_pdf pdf_path ;;
      ret (if success : bool
           then "PDF uploaded successfully. You can now ask questions."
           else "Error uploading PDF.",
           success)
  | ask_question_task question =>
      response <- ask_question question ;;
      ret (response, true)
  end.

End Session.

(** ** Strings as the window uses them *)

(** The line feed character and the one-character string of it. *)
Definition LF : ascii := ascii_of_nat 10.
Definition nl : string := String LF "".

(** [str.isspace] on one character, characters being code points below 256. *)
Definition isspace (c : ascii) : bool :=
  let n := nat_of_ascii c in
  ((9 <=? n) && (n <=? 13) || (28 <=? n) && (n <=? 32) || (n =? 133) || (n =? 160))%nat.

Fixpoint lstrip (s : string) : string :=
  match s with
  | EmptyString => EmptyString
  | String c s' => if isspace c then lstrip s' else s
  end.

Fixpoint rstrip (s : string) : string :=
  match s with
  | EmptyString => EmptyString
  | String c s' =>
      match rstrip s' with
      | EmptyString => if isspace c then EmptyString else String c EmptyString
      | r => String c r
      end
  end.

(** [s.strip()] *)
Definition strip (s : string) : string := rstrip (lstrip s).

(** [s.replace(old, new)] for a non-empty [old]: scan from the left, replace
    each occurrence and go on after it; [skip] counts the characters of the
    occurrence still to pass over. *)
Fixpoint replace_from (old new : string) (skip : nat) (s : string) : string :=
  match s with
  | EmptyString => EmptyString
  | String c s' =>
      match skip with
      | S k => replace_from old new k s'
      | O =>
          if prefix old s
          then new ++ replace_from old new (String.length old - 1) s'
          else String c (replace_from old new 0 s')
      end
  end.

(** With an empty [old], Python puts [new] before every character and at
    the end. *)
Fixpoint intersperse (new s : string) : string :=
  match s with
  | EmptyString => new
  | String c s' => new ++ String c (intersperse new s')
  end.

(** [s.replace(old, new)] *)
Definition replace (old new s : string) : string :=
  match old with
  | EmptyString => intersperse new s
  | _ => replace_from old new 0 s
  end.

(** How many occurrences [replace] finds (left to right, not overlapping),
    for a non-empty [old]. *)
Fixpoint occurrences_from (old : string) (skip : nat) (s : string) : nat :=
  match s with
  | EmptyString => 0
  | String c s' =>
      match skip with
      | S k => occurrences_from old k s'
      | O =>
          if prefix old s
          then S (occurrences_from old (String.length old - 1) s')
          else occurrences_from old 0 s'
      end
  end.

Definition occurrences (old s : string) : nat := occurrences_from old 0 s.

(** [os.path.basename] with [/] as the separator, which is what the file
    dialog returns: the part after the last slash. *)
Fixpoint after_last_slash (cur p : string) : string :=
  match p with
  | EmptyString => cur
  | String c p' =>
      if Ascii.eqb c "/"
      then after_last_slash EmptyString p'
      else after_last_slash (cur ++ String c EmptyString) p'
  end.

Definition basename (p : string) : string := after_last_slash EmptyString p.

(** ** ChatbotApp *)

(** What the window does to the outside, in order. *)
Inductive GuiEvent : Type :=
| MessageBoxCritical (title text : string)
| MessageBoxWarning (title text : string)
| WorkerStart (w : Worker)
| WindowShow.

Definition is_dialog (ev : GuiEvent) : bool :=
  match ev with
  | MessageBoxCritical _ _ | MessageBoxWarning _ _ => true
  | _ => false
  end.

Definition is_worker_start (ev : GuiEvent) : bool :=
  match ev with
  | WorkerStart _ => true
  | _ => false
  end.

(** The window's fields and widget states.  [chat_history] is the plain text
    of the transcript widget; [gui] is the list of events so far. *)
Record ChatbotApp : Type := mkApp {
  pdf_processed : bool;
  pdf_label : string;
  upload_button_enabled : bool;
  chat_history : string;
  question_input : string;
  question_input_enabled : bool;
  send_button_enabled : bool;
  worker : option Worker;
  gui : list GuiEvent
}.

(** [QTextEdit.append]: a new paragraph at the end; in the plain text the
    paragraphs are separated by a line feed. *)
Definition text_append (doc text : string) : string :=
  match doc with
  | EmptyString => text
  | _ => doc ++ nl ++ text
  end.

Definition chat_history_append (text : string) (a : ChatbotApp) : ChatbotApp :=
  mkApp (pdf_processed a) (pdf_label a) (upload_button_enabled a)
    (text_append (chat_history a) text)
    (question_input a) (question_input_enabled a) (send_button_enabled a)
    (worker a) (gui a).

Definition chat_history_setText (text : string) (a : ChatbotApp) : ChatbotApp :=
  mkApp (pdf_processed a) (pdf_label a) (upload_button_enabled a) text
    (question_input a) (question_input_enabled a) (send_button_enabled a)
    (worker a) (gui a).

(** [ChatbotApp.set_ui_enabled] *)
Definition set_ui_enabled (enabled : bool) (a : ChatbotApp) : ChatbotApp :=
  mkApp (pdf_processed a) (pdf_label a) (upload_button_enabled a) (chat_history a)
    (question_input a) enabled enabled (worker a) (gui a).

Definition set_pdf_processed (v : bool) (a : ChatbotApp) : ChatbotApp :=
  mkApp v (pdf_label a) (upload_button_enabled a) (chat_history a)
    (question_input a) (question_input_enabled a) (send_button_enabled a)
    (worker a) (gui a).

Definition pdf_label_setText (text : string) (a : ChatbotApp) : ChatbotApp :=
  mkApp (pdf_processed a) text (upload_button_enabled a) (chat_history a)
    (question_input a) (question_input_enabled a) (send_button_enabled a)
    (worker a) (gui a).

Definition upload_button_setEnabled (v : bool) (a : ChatbotApp) : ChatbotApp :=
  mkApp (pdf_processed a) (pdf_label a) v (chat_history a)
    (question_input a) (question_input_enabled a) (send_button_enabled a)
    (worker a) (gui a).

(** The user types into the question field. *)
Definition question_input_setText (text : string) (a : ChatbotApp) : ChatbotApp :=
  mkApp (pdf_processed a) (pdf_label a) (upload_button_enabled a) (chat_history a)
    text (question_input_enabled a) (send_button_enabled a) (worker a) (gui a).

Definition emit (ev : GuiEvent) (a : ChatbotApp) : ChatbotApp :=
  mkApp (pdf_processed a) (pdf_label a) (upload_button_enabled a) (chat_history a)
    (question_input a) (question_input_enabled a) (send_button_enabled a)
    (worker a) (gui a ++ [ev]).

(** [self.worker = Worker(...); ...; self.worker.start()] *)
Definition start_worker (w : Worker) (a : ChatbotApp) : ChatbotApp :=
  emit (WorkerStart w)
    (mkApp (pdf_processed a) (pdf_label a) (upload_button_enabled a) (chat_history a)
       (question_input a) (question_input_enabled a) (send_button_enabled a)
       (Some w) (gui a)).

Definition welcome : string :=
  "Welcome to the Gemini File API Chatbot." ++ nl ++ nl ++
  "1. Select and upload a PDF." ++ nl ++
  "2. Ask a question about the entire document.".

(** [ChatbotApp.init_ui], followed by [self.pdf_processed = False]. *)
Definition init_ui : ChatbotApp :=
  set_ui_enabled false
    (mkApp false "No PDF loaded." true welcome "" true true None []).

(** [ChatbotApp.select_and_upload_pdf]; [file_name] is what the file dialog
    returned, empty when the user cancelled. *)
Definition select_and_upload_pdf (file_name : string) (a : ChatbotApp) : ChatbotApp :=
  match file_name with
  | EmptyString => a
  | _ =>
      start_worker (upload_pdf_task file_name)
        (chat_history_append ("--- Uploading " ++ basename file_name ++ "... ---")
           (set_ui_enabled false
              (upload_button_setEnabled false
                 (pdf_label_setText ("Uploading: " ++ basename file_name ++ "...") a))))
  end.

(** [ChatbotApp.handle_upload_result] *)
Definition handle_upload_result (message : string) (is_success : bool) (a : ChatbotApp)
  : ChatbotApp :=
  let a1 := upload_button_setEnabled true (chat_history_append message a) in
  if is_success
  then pdf_label_setText "PDF Ready! Ask your questions."
         (set_ui_enabled true (set_pdf_processed true a1))
  else pdf_label_setText "Error uploading PDF. Please try again."
         (set_pdf_processed false a1).

Definition thinking : string := "Gemini: Thinking...".

(** [ChatbotApp.send_question] *)
Definition send_question (a : ChatbotApp) : ChatbotApp :=
  let question := strip (question_input a) in
  match question with
  | EmptyString => a
  | _ =>
      if negb (pdf_processed a)
      then emit (MessageBoxWarning "Warning" "Please upload a PDF first.") a
      else
        start_worker (ask_question_task question)
          (chat_history_append thinking
             (set_ui_enabled false
                (question_input_setText ""
                   (chat_history_append (nl ++ "User: " ++ question) a))))
  end.

(** [ChatbotApp.handle_question_result] *)
Definition handle_question_result (response : string) (is_success : bool) (a : ChatbotApp)
  : ChatbotApp :=
  let current_text := chat_history a in
  let current_text := replace thinking ("Gemini: " ++ response) current_text in
  set_ui_enabled true (chat_history_setText current_text a).

(** ** Start of the program *)

Inductive Startup : Type :=
| SysExit (shown : list GuiEvent) (code : Z)
| Uncaught (e : exn)
| Started (window : ChatbotApp) (qa_system : SimpleQASystem).

(** [ChatbotApp.__init__]; [api_key] is what [os.getenv] returned. *)
Definition ChatbotApp_init (api_key : option string) : Startup :=
  if falsy api_key
  then SysExit
         [MessageBoxCritical "API Key Error" "GEMINI_API_KEY not found in .env file."]
         (-1)
  else
    match SimpleQASystem_init api_key with
    | Raise e => Uncaught e
    | Return qa => Started init_ui qa
    end.

(** The main block up to the event loop: build the window, then show it. *)
Definition main (api_key : option string) : Startup :=
  match ChatbotApp_init api_key with
  | Started window qa => Started (emit WindowShow window) qa
  | other => other
  end.

(** The status the operating system sees for [sys.exit(code)]: the low
    eight bits. *)
Definition exit_status (code : Z) : Z := code mod 256.

(** No line feed in the string. *)
Fixpoint lf_free (s : string) : bool :=
  match s with
  | EmptyString => true
  | String c s' => negb (Ascii.eqb c LF) && lf_free s'
  end.

(** ** Worker and window together *)

(** The slot connected to the result signal of the worker the window
    started last. *)
Definition on_result (message : string) (is_success : bool) (a : ChatbotApp)
  : ChatbotApp :=
  match worker a with
  | Some (upload_pdf_task _) => handle_upload_result message is_success a
  | Some (ask_question_task _) => handle_question_result message is_success a
  | None => a
  end.

(** The started worker runs to its end and its result is delivered; a
    worker that ends with an exception emits nothing. *)
Definition worker_finished {P : Type} (client : Client P) (s : ChatbotApp * St P)
  : ChatbotApp * St P :=
  match worker (fst s) with
  | None => s
  | Some w =>
      match run client w (snd s) with
      | (Return (message, is_success), st') => (on_result message is_success (fst s), st')
      | (Raise _, st') => (fst s, st')
      end
  end.

(** ** Concrete providers *)

(** A provider that keeps the names of the files it stores.  An upload
    stores the file under ["files/" ++ path]; deleting or querying a file it
    does not store is an [APIError]. *)
Definition stored (n : string) (files : list string) : bool :=
  existsb (String.eqb n) files.

Definition store_client : Client (list string) :=
  mkClient
    (fun path files =>
       if stored ("files/" ++ path) files
       then (Raise (APIError "409 ALREADY_EXISTS"), files)
       else (Return (mkFile ("files/" ++ path)), ("files/" ++ path) :: files))
    (fun n files =>
       if stored n files
       then (Return tt, filter (fun m => negb (String.eqb n m)) files)
       else (Raise (APIError "404 NOT_FOUND"), files))
    (fun model f question files =>
       if stored (name f) files
       then (Return ("Answer to: " ++ question), files)
       else (Raise (APIError "403 PERMISSION_DENIED"), files)).

(** A provider whose connection drops: the state counts the calls that
    still get through; after that every call raises a transport error, which
    is not an [APIError]. *)
Definition dropping_client : Client nat :=
  mkClient
    (fun path n =>
       match n with
       | O => (Raise (OtherException "ConnectError"), O)
       | S n' => (Return (mkFile ("files/" ++ path)), n')
       end)
    (fun _ n =>
       match n with
       | O => (Raise (OtherException "ConnectError"), O)
       | S n' => (Return tt, n')
       end)
    (fun _ _ question n =>
       match n with
       | O => (Raise (OtherException "ConnectError"), O)
       | S n' => (Return ("Answer to: " ++ question), n')
       end).

(** A provider that stores what it is sent and answers every question with
    the same text. *)
Definition answering_client (answer : string) : Client unit :=
  mkClient
    (fun path p => (Return (mkFile ("files/" ++ path)), p))
    (fun _ p => (Return tt, p))
    (fun _ _ _ p => (Return answer, p)).

(** The session right after construction, and one that holds a file without
    any call on record. *)
Definition fresh_session {P : Type} (p : P) : St P :=
  mkSt (mkQA None "gemini-2.5-flash") (mkWorld p [] []).

Definition holding_session {P : Type} (f : File) (p : P) : St P :=
  mkSt (mkQA (Some f) "gemini-2.5-flash") (mkWorld p [] []).

(** The window and session once [/home/user/doc.pdf] has been uploaded. *)
Definition ready (answer : string) : ChatbotApp * St unit :=
  worker_finished (answering_client answer)
    (select_and_upload_pdf "/home/user/doc.pdf" init_ui, fresh_session tt).

(** The user types [text] and sends it; the worker finishes. *)
Definition ask (answer text : string) (s : ChatbotApp * St unit)
  : ChatbotApp * St unit :=
  worker_finished (answering_client answer)
    (send_question (question_input_setText text (fst s)), snd s).

(** ** Predicates of the properties *)

(** Every character is white space. *)
Fixpoint all_space (s : string) : bool :=
  match s with
  | EmptyString => true
  | String c s' => isspace c && all_space s'
  end.

(** No slash in the string. *)
Fixpoint slash_free (s : string) : bool :=
  match s with
  | EmptyString => true
  | String c s' => negb (Ascii.eqb c "/") && slash_free s'
  end.

(** The question field and the send button are enabled together. *)
Definition controls_in_sync (a : ChatbotApp) : Prop :=
  question_input_enabled a = send_button_enabled a.

(** ** The session: what the methods do to the object and the provider *)

Ltac run_call op :=
  let r := fresh "r" in
  let p' := fresh "p'" in
  let E := fresh "E" in
  destruct op as [r p'] eqn:E.

(** One step of a symbolic run: split on what the next remote call answers,
    then on the kind of result and of exception. *)
Ltac run_step :=
  match goal with
  | |- context [files_delete ?c ?n ?p] => run_call (files_delete c n p)
  | |- context [files_upload ?c ?n ?p] => run_call (files_upload c n p)
  | |- context [generate_content ?c ?m ?f ?q ?p] =>
      run_call (generate_content c m f q p)
  | r : result _ |- _ => destruct r
  | e : exn |- _ => destruct e
  end; cbn.

Ltac unfold_session :=
  unfold upload_pdf, cleanup_file, ask_question, client_files_delete,
    client_files_upload, client_generate_content, try_finally, try_except, bind,
    remote, print, ret, get_uploaded_file_ref, get_llm_model,
    set_uploaded_file_ref in *; cbn in *.

Section SessionFacts.

Context {P : Type} (client : Client P).

Lemma count_app (k : Call -> bool) (l1 l2 : list Call) :
  count k (l1 ++ l2) = count k l1 + count k l2.
Proof. unfold count. rewrite filter_app, length_app. reflexivity. Qed.

(** Without a file, [cleanup_file] does nothing at all. *)
Lemma cleanup_file_nothing_held (st : St P) :
  uploaded_file_ref (self st) = None ->
  cleanup_file client st = (Return tt, st).
Proof.
  intros H. unfold cleanup_file, bind, get_uploaded_file_ref. rewrite H. reflexivity.
Qed.

(** With a file, [cleanup_file] makes exactly the one delete call for it and
    leaves no file, whatever the provider answers. *)
Lemma cleanup_file_held (st : St P) (f : File) :
  uploaded_file_ref (self st) = Some f ->
  uploaded_file_ref (self (snd (cleanup_file client st))) = None
  /\ calls (world (snd (cleanup_file client st)))
     = (calls (world st) ++ [FilesDelete (name f)])%list.
Proof.
  intros H. unfold_session. rewrite H.
  repeat run_step; auto.
Qed.

(** After [cleanup_file] no file is held, on every path. *)
Lemma cleanup_file_clears (st : St P) :
  uploaded_file_ref (self (snd (cleanup_file client st))) = None.
Proof.
  destruct (uploaded_file_ref (self st)) as [f|] eqn:E.
  - apply (cleanup_file_held st f E).
  - rewrite (cleanup_file_nothing_held st E). exact E.
Qed.

(** X10. With a file held, [cleanup_file] returns when the delete call
    returns or raises an [APIError]; any other exception of the delete call
    is the exception [cleanup_file] ends with. *)
Lemma cleanup_file_outcome (st : St P) (f : File) :
  uploaded_file_ref (self st) = Some f ->
  fst (cleanup_file client st)
  = match fst (files_delete client (name f) (provider (world st))) with
    | Return _ => Return tt
    | Raise e => if is_APIError e then Return tt else Raise e
    end.
Proof.
  intros H. unfold_session. rewrite H.
  repeat run_step; auto.
Qed.

(** C1. With no file held, [ask_question] returns the no-document message
    for every question and leaves the whole state as it was, the trace of
    provider calls included: no call to the generate endpoint is made. *)
Theorem ask_question_no_document (question : string) (st : St P) :
  uploaded_file_ref (self st) = None ->
  ask_question client question st
  = (Return "Error: No document has been successfully uploaded.", st)
  /\ calls (world (snd (ask_question client question st))) = calls (world st)
  /\ count is_generate (calls (world (snd (ask_question client question st))))
     = count is_generate (calls (world st)).
Proof.
  intros H.
  assert (E : ask_question client question st = (Return no_document, st)).
  { unfold ask_question, bind, get_uploaded_file_ref. rewrite H. reflexivity. }
  rewrite E. cbn. auto.
Qed.

(** C10. [ask_question] never changes the fields of the session: the file
    reference and the model name are the same afterwards, whether an answer
    came back, no document was held, the provider reported an error, or
    an exception went through. *)
Theorem ask_question_preserves_session (question : string) (st : St P) :
  uploaded_file_ref (self (snd (ask_question client question st)))
  = uploaded_file_ref (self st)
  /\ llm_model (self (snd (ask_question client question st))) = llm_model (self st).
Proof.
  unfold_session.
  destruct (uploaded_file_ref (self st)) as [f|] eqn:E0; cbn; auto.
  repeat run_step; auto.
Qed.

(** C4. [cleanup_file] is idempotent.  After one call no file is held,
    whatever the delete call did; a second call right after it returns
    without touching anything; and the two calls together make at most one
    delete call, both when the second runs in the state the first left and
    when the two are sequenced as statements. *)
Theorem cleanup_file_idempotent (st : St P) :
  let st1 := snd (cleanup_file client st) in
  let st2 := snd (cleanup_file client st1) in
  uploaded_file_ref (self st1) = None
  /\ cleanup_file client st1 = (Return tt, st1)
  /\ count is_delete (calls (world st2)) <= S (count is_delete (calls (world st)))
  /\ count is_delete
       (calls (world (snd ((cleanup_file client ;; cleanup_file client) st))))
     <= S (count is_delete (calls (world st))).
Proof.
  intros st1 st2.
  assert (H1 : uploaded_file_ref (self st1) = None)
    by apply cleanup_file_clears.
  assert (H2 : cleanup_file client st1 = (Return tt, st1))
    by (apply cleanup_file_nothing_held; exact H1).
  assert (H3 : count is_delete (calls (world st1))
               <= S (count is_delete (calls (world st)))).
  { subst st1. destruct (uploaded_file_ref (self st)) as [f|] eqn:E.
    - destruct (cleanup_file_held st f E) as [_ ->].
      rewrite count_app. cbn. lia.
    - rewrite (cleanup_file_nothing_held st E). cbn. lia. }
  repeat split; auto.
  - subst st2. rewrite H2. exact H3.
  - unfold bind at 1. fold st1.
    destruct (cleanup_file client st) as [r s1] eqn:E1.
    cbn in st1. subst st1.
    destruct r; [rewrite H2|]; exact H3.
Qed.

(** Whenever [upload_pdf] does not return [True], no file is held
    afterwards. *)
Lemma upload_pdf_no_file_unless_true (pdf_path : string) (st : St P) :
  fst (upload_pdf client pdf_path st) <> Return true ->
  uploaded_file_ref (self (snd (upload_pdf client pdf_path st))) = None.
Proof.
  pose proof (cleanup_file_clears st) as H1.
  unfold upload_pdf, client_files_upload, try_except, bind, remote, print, ret,
    set_uploaded_file_ref.
  destruct (cleanup_file client st) as [r st1]. cbn in H1.
  destruct r; cbn; auto.
  repeat run_step; auto; congruence.
Qed.

(** C5. When the call to the upload endpoint raises, whatever the
    exception, [upload_pdf] returns [False] and no file is held
    afterwards. *)
Theorem upload_pdf_error_returns_false
    (pdf_path : string) (st st1 : St P) (e : exn) (p' : P) :
  cleanup_file client st = (Return tt, st1) ->
  files_upload client pdf_path (provider (world st1)) = (Raise e, p') ->
  fst (upload_pdf client pdf_path st) = Return false
  /\ uploaded_file_ref (self (snd (upload_pdf client pdf_path st))) = None.
Proof.
  intros Hc Hu.
  assert (F : fst (upload_pdf client pdf_path st) = Return false).
  { unfold upload_pdf. unfold bind at 1. rewrite Hc.
    unfold_session. rewrite Hu. cbn. destruct e; reflexivity. }
  split; [exact F|].
  apply upload_pdf_no_file_unless_true. rewrite F. discriminate.
Qed.

(** The [try] of [upload_pdf] catches everything: from a session that holds
    no file, [upload_pdf] returns. *)
Lemma upload_pdf_returns_without_file (pdf_path : string) (st : St P) :
  uploaded_file_ref (self st) = None ->
  raised (fst (upload_pdf client pdf_path st)) = false.
Proof.
  intros H. unfold upload_pdf. unfold bind at 1.
  rewrite (cleanup_file_nothing_held st H).
  unfold_session. repeat run_step; reflexivity.
Qed.

(** X8. With a file held, the delete call for that file is the first call
    [upload_pdf] makes, whatever happens afterwards. *)
Lemma upload_pdf_deletes_first (pdf_path : string) (st : St P) (f : File) :
  uploaded_file_ref (self st) = Some f ->
  exists rest,
    calls (world (snd (upload_pdf client pdf_path st)))
    = (calls (world st) ++ FilesDelete (name f) :: rest)%list.
Proof.
  intros H. unfold_session. rewrite H.
  repeat run_step;
    rewrite <- ?app_assoc; cbn; eexists; reflexivity.
Qed.

(** X9. With a file held, when the delete call returns or raises an
    [APIError], [upload_pdf] makes exactly two calls, the delete of the old
    file and then the upload of the new path, and no exception leaves it. *)
Lemma upload_pdf_proceeds_after_api_error
    (pdf_path : string) (st : St P) (f : File) :
  uploaded_file_ref (self st) = Some f ->
  match fst (files_delete client (name f) (provider (world st))) with
  | Return _ => True
  | Raise e => is_APIError e = true
  end ->
  calls (world (snd (upload_pdf client pdf_path st)))
  = (calls (world st) ++ [FilesDelete (name f); FilesUpload pdf_path])%list
  /\ raised (fst (upload_pdf client pdf_path st)) = false.
Proof.
  intros H. unfold_session. rewrite H.
  destruct (files_delete client (name f) (provider (world st))) as [r p1] eqn:E.
  cbn. destruct r as [[]|e]; [|destruct e]; cbn; intros Hd; try discriminate;
    repeat run_step; rewrite <- ?app_assoc; cbn; auto.
Qed.

(** When the generate call returns or raises an [APIError], [ask_question]
    returns a string. *)
Lemma ask_question_api_error_is_value (question : string) (st : St P) (f : File) :
  uploaded_file_ref (self st) = Some f ->
  match fst (generate_content client (llm_model (self st)) f question
               (provider (world st))) with
  | Return _ => True
  | Raise e => is_APIError e = true
  end ->
  raised (fst (ask_question client question st)) = false.
Proof.
  intros H. unfold_session. rewrite H.
  destruct (generate_content client (llm_model (self st)) f question
              (provider (world st))) as [r p1] eqn:E.
  cbn. destruct r as [a|e]; [|destruct e]; cbn; intros Hd;
    try discriminate; reflexivity.
Qed.

End SessionFacts.

(** C1 at a session that was just constructed. *)
Lemma ask_question_no_document_witness :
  uploaded_file_ref (self (fresh_session (@nil string))) = None
  /\ (ask_question store_client "What is X?" (fresh_session [])
      = (Return "Error: No document has been successfully uploaded.", fresh_session [])
      /\ calls (world (snd (ask_question store_client "What is X?" (fresh_session []))))
         = calls (world (fresh_session (@nil string)))
      /\ count is_generate
           (calls (world (snd (ask_question store_client "What is X?" (fresh_session [])))))
         = count is_generate (calls (world (fresh_session (@nil string))))).
Proof.
  split; [reflexivity|].
  apply (ask_question_no_document store_client "What is X?" (fresh_session [])).
  reflexivity.
Defined.

(** C5 at a provider that cannot be reached. *)
Lemma upload_pdf_error_returns_false_witness :
  fst (upload_pdf dropping_client "doc.pdf" (fresh_session 0)) = Return false
  /\ uploaded_file_ref
       (self (snd (upload_pdf dropping_client "doc.pdf" (fresh_session 0)))) = None.
Proof.
  apply (upload_pdf_error_returns_false dropping_client "doc.pdf"
           (fresh_session 0) (fresh_session 0) (OtherException "ConnectError") 0);
    reflexivity.
Defined.

(** C2. The document is uploaded, then the connection drops.  The
    transport error of the generate call is not an [APIError] and
    [ask_question] has no clause for it: it leaves [ask_question], and
    [Worker.run] ends with it instead of emitting a result, so the window
    keeps waiting with its input disabled. *)
Theorem ask_question_transport_error_escapes :
  let uploaded := upload_pdf dropping_client "doc.pdf" (fresh_session 1) in
  let window :=
    send_question
      (question_input_setText "What is X?"
         (handle_upload_result "PDF uploaded successfully. You can now ask questions."
            true (select_and_upload_pdf "doc.pdf" init_ui))) in
  fst uploaded = Return true
  /\ fst (ask_question dropping_client "What is X?" (snd uploaded))
     = Raise (OtherException "ConnectError")
  /\ fst (run dropping_client (ask_question_task "What is X?") (snd uploaded))
     = Raise (OtherException "ConnectError")
  /\ fst (worker_finished dropping_client (window, snd uploaded)) = window
  /\ question_input_enabled window = false.
Proof. repeat split; vm_compute; reflexivity. Qed.

(** C3. A first document is uploaded, then the connection drops and a
    second upload is asked for.  The transport error of the delete call
    leaves [cleanup_file], which runs outside the [try] of [upload_pdf]:
    the exception ends [upload_pdf] and [Worker.run], the delete call is
    the last call made, and the upload endpoint is not reached again. *)
Theorem upload_pdf_delete_transport_error_stops_upload :
  let first := upload_pdf dropping_client "old.pdf" (fresh_session 1) in
  let second := upload_pdf dropping_client "new.pdf" (snd first) in
  first
  = (Return true,
     mkSt (mkQA (Some (mkFile "files/old.pdf")) "gemini-2.5-flash")
       (mkWorld 0 [FilesUpload "old.pdf"] []))
  /\ second
     = (Raise (OtherException "ConnectError"),
        mkSt (mkQA None "gemini-2.5-flash")
          (mkWorld 0 [FilesUpload "old.pdf"; FilesDelete "files/old.pdf"] []))
  /\ count is_upload (calls (world (snd second)))
     = count is_upload (calls (world (snd first)))
  /\ fst (run dropping_client (upload_pdf_task "new.pdf") (snd first))
     = Raise (OtherException "ConnectError").
Proof. repeat split; reflexivity. Qed.

(** The same upload when the delete call fails with an [APIError]: the
    failure is printed and the upload goes through. *)
Example upload_pdf_delete_api_error_goes_on :
  upload_pdf store_client "new.pdf" (holding_session (mkFile "files/old.pdf") [])
  = (Return true,
     mkSt (mkQA (Some (mkFile "files/new.pdf")) "gemini-2.5-flash")
       (mkWorld ["files/new.pdf"]
          [FilesDelete "files/old.pdf"; FilesUpload "new.pdf"]
          ["Error cleaning up file: 404 NOT_FOUND"])).
Proof. reflexivity. Qed.

(** ** The window *)

(** C7. A question that is empty once stripped makes [send_question]
    return at once: the window is exactly as before, so no worker was
    started, nothing was appended to the transcript, and neither
    [pdf_processed] nor the enabled state of any control changed. *)
Theorem send_question_empty_is_noop (a : ChatbotApp) :
  strip (question_input a) = "" ->
  send_question a = a.
Proof.
  intros H. unfold send_question. rewrite H. reflexivity.
Qed.

Lemma send_question_empty_is_noop_witness :
  strip (question_input (question_input_setText "   " init_ui)) = ""
  /\ send_question (question_input_setText "   " init_ui)
     = question_input_setText "   " init_ui.
Proof.
  split; [reflexivity|].
  apply (send_question_empty_is_noop (question_input_setText "   " init_ui)).
  reflexivity.
Defined.

(** C8. A non-empty question while [pdf_processed] is false: the only thing
    [send_question] does is show the warning.  The transcript, the worker
    reference, the started workers and every other field are as before. *)
Theorem send_question_without_pdf_warns (a : ChatbotApp) :
  strip (question_input a) <> "" ->
  pdf_processed a = false ->
  send_question a = emit (MessageBoxWarning "Warning" "Please upload a PDF first.") a
  /\ gui (send_question a)
     = (gui a ++ [MessageBoxWarning "Warning" "Please upload a PDF first."])%list
  /\ filter is_worker_start (gui (send_question a)) = filter is_worker_start (gui a)
  /\ worker (send_question a) = worker a
  /\ chat_history (send_question a) = chat_history a.
Proof.
  intros Hq Hp.
  assert (E : send_question a
              = emit (MessageBoxWarning "Warning" "Please upload a PDF first.") a).
  { unfold send_question. destruct (strip (question_input a)); [congruence|].
    rewrite Hp. reflexivity. }
  rewrite E. cbn. repeat split.
  rewrite filter_app. cbn. apply app_nil_r.
Qed.

Lemma send_question_without_pdf_warns_witness :
  let a := question_input_setText "What is X?" init_ui in
  strip (question_input a) <> ""
  /\ pdf_processed a = false
  /\ send_question a = emit (MessageBoxWarning "Warning" "Please upload a PDF first.") a
  /\ gui (send_question a)
     = (gui a ++ [MessageBoxWarning "Warning" "Please upload a PDF first."])%list
  /\ filter is_worker_start (gui (send_question a)) = filter is_worker_start (gui a)
  /\ worker (send_question a) = worker a
  /\ chat_history (send_question a) = chat_history a.
Proof.
  intros a.
  assert (Hq : strip (question_input a) <> "") by (vm_compute; discriminate).
  assert (Hp : pdf_processed a = false) by reflexivity.
  split; [exact Hq|]. split; [exact Hp|].
  exact (send_question_without_pdf_warns a Hq Hp).
Defined.

(** C9. Start-up by what [os.getenv] returned.  With the key missing (unset
    or empty) [main] ends in [sys.exit(-1)] after exactly one event, the
    critical message box; the window is never shown and the exit status is
    not zero.  With a key, the program is started, no dialog was shown and
    the window is shown. *)
Theorem startup_by_api_key (api_key : option string) :
  if falsy api_key
  then main api_key
       = SysExit
           [MessageBoxCritical "API Key Error" "GEMINI_API_KEY not found in .env file."]
           (-1)
       /\ exit_status (-1) = 255%Z
       /\ exit_status (-1) <> 0%Z
  else exists window qa,
         main api_key = Started window qa
         /\ filter is_dialog (gui window) = []
         /\ gui window = [WindowShow].
Proof.
  unfold main, ChatbotApp_init, SimpleQASystem_init.
  destruct (falsy api_key).
  - repeat split. discriminate.
  - eexists; eexists. repeat split.
Qed.

(** ** What [replace] does to the transcript *)

Section Replace.

Lemma string_app_assoc (s1 s2 s3 : string) : (s1 ++ s2) ++ s3 = s1 ++ (s2 ++ s3).
Proof. induction s1 as [|c s1 IH]; cbn; [reflexivity | now rewrite IH]. Qed.

Lemma string_app_nil_r (s : string) : s ++ "" = s.
Proof. induction s as [|c s IH]; cbn; [reflexivity | now rewrite IH]. Qed.

Lemma prefix_refl (s : string) : prefix s s = true.
Proof.
  induction s as [|c s IH]; cbn; [reflexivity|].
  destruct (ascii_dec c c); congruence.
Qed.

Lemma prefix_length (old s : string) :
  prefix old s = true -> String.length old <= String.length s.
Proof.
  revert s. induction old as [|a old IH]; intros [|b s]; cbn; try lia; try discriminate.
  destruct (ascii_dec a b); [|discriminate].
  intros H. apply IH in H. lia.
Qed.

(** A string without line feed is found in front of [u ++ nl ++ v] only if
    it is found in front of [u]. *)
Lemma prefix_before_line (old u v : string) :
  lf_free old = true ->
  prefix old (u ++ nl ++ v) = prefix old u.
Proof.
  revert u. induction old as [|a old IH]; intros u Hf.
  - destruct u; reflexivity.
  - cbn in Hf. apply andb_true_iff in Hf as [Ha Hf].
    destruct u as [|b u]; cbn.
    + match goal with
      | |- context [ascii_dec a ?x] => destruct (ascii_dec a x) as [->|]
      end; [|reflexivity].
      rewrite Ascii.eqb_refl in Ha. discriminate.
    + destruct (ascii_dec a b); [apply IH; exact Hf | reflexivity].
Qed.

(** Skipping as many characters as are left gives nothing. *)
Lemma replace_from_skip (old new s : string) :
  replace_from old new (String.length s) s = "".
Proof.
  induction s as [|c s IH]; cbn [replace_from String.length]; auto.
Qed.

(** One step of [replace] at an occurrence. *)
Lemma replace_from_head (old new : string) (c : ascii) (s : string) :
  prefix old (String c s) = true ->
  replace_from old new 0 (String c s)
  = new ++ replace_from old new (String.length old - 1) s.
Proof.
  intros H. cbn [replace_from]. rewrite H. reflexivity.
Qed.

(** [old] itself is replaced by [new]. *)
Lemma replace_from_itself (old new : string) :
  old <> "" -> replace_from old new 0 old = new.
Proof.
  intros H. destruct old as [|c o]; [congruence|].
  rewrite replace_from_head by apply prefix_refl.
  replace (String.length (String c o) - 1) with (String.length o)
    by (cbn [String.length]; lia).
  rewrite replace_from_skip. apply string_app_nil_r.
Qed.

Variables old new : string.
Hypothesis old_lf_free : lf_free old = true.
Hypothesis old_not_empty : old <> "".

(** [replace] works line by line. *)
Lemma replace_from_line (v u : string) (k : nat) :
  k <= String.length u ->
  replace_from old new k (u ++ nl ++ v)
  = replace_from old new k u ++ nl ++ replace_from old new 0 v.
Proof.
  revert k. induction u as [|c u IH]; intros k Hk.
  - cbn in Hk. assert (k = 0) as -> by lia.
    change ("" ++ nl ++ v) with (String LF v).
    cbn [replace_from].
    replace (prefix old (String LF v)) with false; [reflexivity|].
    symmetry. change (String LF v) with ("" ++ nl ++ v).
    rewrite prefix_before_line by exact old_lf_free.
    destruct old; [congruence | reflexivity].
  - change (String c u ++ nl ++ v) with (String c (u ++ nl ++ v)).
    destruct k as [|k]; cbn [replace_from].
    + change (String c (u ++ nl ++ v)) with (String c u ++ nl ++ v).
      rewrite prefix_before_line by exact old_lf_free.
      destruct (prefix old (String c u)) eqn:E.
      * apply prefix_length in E. cbn in E.
        rewrite IH by lia. now rewrite string_app_assoc.
      * rewrite IH by lia. reflexivity.
    + cbn in Hk. apply IH. lia.
Qed.

(** Where [replace] finds nothing, it changes nothing. *)
Lemma replace_from_no_occurrence (s : string) :
  occurrences old s = 0 ->
  replace_from old new 0 s = s.
Proof.
  unfold occurrences.
  induction s as [|c s IH]; cbn [replace_from occurrences_from]; [reflexivity|].
  destruct (prefix old (String c s)); [discriminate|].
  intros H. now rewrite IH.
Qed.

End Replace.

(** The transcript after [send_question] went through: the user's entry,
    then the placeholder. *)
Lemma send_question_transcript (a : ChatbotApp) :
  strip (question_input a) <> "" ->
  pdf_processed a = true ->
  chat_history (send_question a)
  = text_append
      (text_append (chat_history a) (nl ++ "User: " ++ strip (question_input a)))
      thinking
  /\ pdf_processed (send_question a) = true.
Proof.
  intros Hq Hp. unfold send_question.
  destruct (strip (question_input a)) as [|c q]; [congruence|].
  rewrite Hp. split; [reflexivity | exact Hp].
Qed.

(** What [handle_question_result] writes and enables. *)
Lemma handle_question_result_fields
    (a : ChatbotApp) (response : string) (is_success : bool) :
  let a' := handle_question_result response is_success a in
  chat_history a'
  = replace_from thinking ("Gemini: " ++ response) 0 (chat_history a)
  /\ question_input_enabled a' = true
  /\ send_button_enabled a' = true
  /\ pdf_processed a' = pdf_processed a.
Proof. repeat split. Qed.

Lemma text_append_not_empty (doc text : string) :
  text <> "" -> text_append doc text <> "".
Proof.
  intros H. unfold text_append. destruct doc; [exact H | discriminate].
Qed.

Lemma text_append_to_text (doc text : string) :
  doc <> "" -> text_append doc text = doc ++ nl ++ text.
Proof.
  intros H. unfold text_append. destruct doc; [congruence | reflexivity].
Qed.

(** The placeholder alone is replaced by the new text. *)
Lemma replace_thinking_itself (new : string) :
  replace_from thinking new 0 thinking = new.
Proof. apply replace_from_itself. discriminate. Qed.


(** ** Worker and window together *)

(** The scenario of the specification: the placeholder is the only
    occurrence, and the answer takes its place. *)
Example what_is_x :
  chat_history (fst (ask "X is Y" "What is X?" (ready "X is Y")))
  = chat_history (fst (ready "X is Y")) ++ nl ++ nl ++ "User: What is X?"
    ++ nl ++ "Gemini: X is Y"
  /\ question_input_enabled (fst (ask "X is Y" "What is X?" (ready "X is Y"))) = true
  /\ send_button_enabled (fst (ask "X is Y" "What is X?" (ready "X is Y"))) = true.
Proof. repeat split; reflexivity. Qed.

(** C6. The question [Gemini: Thinking...], asked in the ready state and
    answered with [X is Y].  When the question has been sent the transcript
    ends with the user's entry and the placeholder, and the placeholder text
    occurs twice.  [handle_question_result] replaces both occurrences: the
    user's entry no longer shows what the user asked. *)
Theorem thinking_replaced_in_user_entry :
  let sent := send_question (question_input_setText "Gemini: Thinking..."
                               (fst (ready "X is Y"))) in
  let answered := fst (ask "X is Y" "Gemini: Thinking..." (ready "X is Y")) in
  pdf_processed (fst (ready "X is Y")) = true
  /\ chat_history sent
     = chat_history (fst (ready "X is Y")) ++ nl ++ nl ++ "User: Gemini: Thinking..."
       ++ nl ++ "Gemini: Thinking..."
  /\ occurrences thinking (chat_history sent) = 2
  /\ chat_history answered
     = chat_history (fst (ready "X is Y")) ++ nl ++ nl ++ "User: Gemini: X is Y"
       ++ nl ++ "Gemini: X is Y"
  /\ chat_history answered
     <> chat_history (fst (ready "X is Y")) ++ nl ++ nl ++ "User: Gemini: Thinking..."
        ++ nl ++ "Gemini: X is Y".
Proof.
  repeat split; try reflexivity.
  vm_compute. discriminate.
Qed.

(** ** The session, method by method *)

Section SessionRuns.

Context {P : Type} (client : Client P).

(** The whole of [cleanup_file], by what the delete call answers. *)
Lemma cleanup_file_run (st : St P) :
  cleanup_file client st
  = match uploaded_file_ref (self st) with
    | None => (Return tt, st)
    | Some f =>
        let tr := (calls (world st) ++ [FilesDelete (name f)])%list in
        let cleared := mkQA None (llm_model (self st)) in
        match files_delete client (name f) (provider (world st)) with
        | (Return _, p') =>
            (Return tt,
             mkSt cleared
               (mkWorld p' tr (stdout (world st) ++ ["Cleaned up file: " ++ name f])))
        | (Raise e, p') =>
            if is_APIError e
            then (Return tt,
                  mkSt cleared
                    (mkWorld p' tr
                       (stdout (world st) ++ ["Error cleaning up file: " ++ str e])))
            else (Raise e, mkSt cleared (mkWorld p' tr (stdout (world st))))
        end
    end.
Proof.
  unfold_session.
  destruct (uploaded_file_ref (self st)) as [f|]; [|reflexivity].
  repeat run_step; reflexivity.
Qed.

(** The whole of [upload_pdf], by what [cleanup_file] does and what the
    upload call answers. *)
Lemma upload_pdf_run (pdf_path : string) (st : St P) :
  upload_pdf client pdf_path st
  = match cleanup_file client st with
    | (Raise e, st1) => (Raise e, st1)
    | (Return _, st1) =>
        let tr := (calls (world st1) ++ [FilesUpload pdf_path])%list in
        match files_upload client pdf_path (provider (world st1)) with
        | (Return f, p') =>
            (Return true,
             mkSt (mkQA (Some f) (llm_model (self st1)))
               (mkWorld p' tr (stdout (world st1))))
        | (Raise e, p') =>
            (Return false,
             mkSt (self st1)
               (mkWorld p' tr
                  (stdout (world st1)
                   ++ [(if is_APIError e
                        then "Gemini API Error during file upload: "
                        else "An unexpected error occurred: ") ++ str e])))
        end
    end.
Proof.
  unfold upload_pdf. unfold bind at 1.
  destruct (cleanup_file client st) as [r st1].
  destruct r; [|reflexivity].
  unfold client_files_upload, try_except, bind, remote, print, ret,
    set_uploaded_file_ref.
  destruct (files_upload client pdf_path (provider (world st1))) as [r p'].
  destruct r as [f|e]; [reflexivity|]. destruct e; reflexivity.
Qed.

(** The whole of [ask_question], by what the generate call answers. *)
Lemma ask_question_run (question : string) (st : St P) :
  ask_question client question st
  = match uploaded_file_ref (self st) with
    | None => (Return no_document, st)
    | Some f =>
        let st' p' :=
          mkSt (self st)
            (mkWorld p'
               (calls (world st) ++ [GenerateContent (llm_model (self st)) f question])
               (stdout (world st))) in
        match generate_content client (llm_model (self st)) f question
                (provider (world st)) with
        | (Return text, p') => (Return text, st' p')
        | (Raise e, p') =>
            if is_APIError e
            then (Return ("Gemini API Error during generation: " ++ str e), st' p')
            else (Raise e, st' p')
        end
    end.
Proof.
  unfold_session.
  destruct (uploaded_file_ref (self st)) as [f|]; [|reflexivity].
  repeat run_step; reflexivity.
Qed.

(** [upload_pdf] ends in one of two ways: it returned [True] and a file is
    held, or it did not and no file is held. *)
Lemma upload_pdf_result_cases (pdf_path : string) (st : St P) :
  (fst (upload_pdf client pdf_path st) = Return true
   /\ exists f, uploaded_file_ref (self (snd (upload_pdf client pdf_path st))) = Some f)
  \/ (fst (upload_pdf client pdf_path st) <> Return true
      /\ uploaded_file_ref (self (snd (upload_pdf client pdf_path st))) = None).
Proof.
  destruct (fst (upload_pdf client pdf_path st)) as [[|]|e] eqn:E.
  - left. split; [reflexivity|].
    rewrite upload_pdf_run in *.
    destruct (cleanup_file client st) as [[[]|e] st1]; [|discriminate].
    cbv zeta in *.
    destruct (files_upload client pdf_path (provider (world st1))) as [[f|e] p'];
      [|discriminate].
    exists f. reflexivity.
  - right. split; [discriminate|].
    apply upload_pdf_no_file_unless_true. rewrite E. discriminate.
  - right. split; [discriminate|].
    apply upload_pdf_no_file_unless_true. rewrite E. discriminate.
Qed.

(** X1. When the cleanup returned and the upload call returns a file,
    [upload_pdf] returns [True], the session holds exactly that file, and
    nothing is printed. *)
Theorem upload_pdf_success_stores_file
    (pdf_path : string) (st st1 : St P) (f : File) (p' : P) :
  cleanup_file client st = (Return tt, st1) ->
  files_upload client pdf_path (provider (world st1)) = (Return f, p') ->
  fst (upload_pdf client pdf_path st) = Return true
  /\ uploaded_file_ref (self (snd (upload_pdf client pdf_path st))) = Some f
  /\ provider (world (snd (upload_pdf client pdf_path st))) = p'
  /\ stdout (world (snd (upload_pdf client pdf_path st))) = stdout (world st1).
Proof.
  intros Hc Hu. rewrite upload_pdf_run, Hc. cbv zeta. rewrite Hu. cbn. auto.
Qed.

(** X2. [upload_pdf] returns [True] exactly when the session holds a file
    afterwards. *)
Theorem upload_pdf_true_iff_file_held (pdf_path : string) (st : St P) :
  fst (upload_pdf client pdf_path st) = Return true
  <-> exists f, uploaded_file_ref (self (snd (upload_pdf client pdf_path st))) = Some f.
Proof.
  destruct (upload_pdf_result_cases pdf_path st) as [[Ht Hf]|[Hn Hf]].
  - split; auto.
  - split; [contradiction|]. intros [f Hs]. congruence.
Qed.

(** X3. From a session that holds no file, [upload_pdf] makes one call, the
    upload of the given path, and returns whatever that call does: no
    exception leaves it. *)
Theorem upload_pdf_first_upload (pdf_path : string) (st : St P) :
  uploaded_file_ref (self st) = None ->
  calls (world (snd (upload_pdf client pdf_path st)))
  = (calls (world st) ++ [FilesUpload pdf_path])%list
  /\ fst (upload_pdf client pdf_path st)
     = Return (negb (raised (fst (files_upload client pdf_path (provider (world st)))))).
Proof.
  intros H. rewrite upload_pdf_run, (cleanup_file_nothing_held client st H).
  cbv zeta.
  destruct (files_upload client pdf_path (provider (world st))) as [[f|e] p'];
    cbn; auto.
Qed.

(** X4. One [upload_pdf] makes at most one delete call and at most one
    upload call, and never a generate call; what was in the trace stays. *)
Theorem upload_pdf_call_discipline (pdf_path : string) (st : St P) :
  exists made,
    calls (world (snd (upload_pdf client pdf_path st))) = (calls (world st) ++ made)%list
    /\ count is_delete made <= 1
    /\ count is_upload made <= 1
    /\ count is_generate made = 0.
Proof.
  rewrite upload_pdf_run, cleanup_file_run.
  destruct (uploaded_file_ref (self st)) as [f|]; cbv zeta.
  - destruct (files_delete client (name f) (provider (world st))) as [[[]|e] p1].
    + destruct (files_upload client pdf_path _) as [[g|e] p2]; cbn;
        exists [FilesDelete (name f); FilesUpload pdf_path];
        rewrite <- app_assoc; cbn; auto.
    + destruct (is_APIError e).
      * destruct (files_upload client pdf_path _) as [[g|e'] p2]; cbn;
          exists [FilesDelete (name f); FilesUpload pdf_path];
          rewrite <- app_assoc; cbn; auto.
      * cbn. exists [FilesDelete (name f)]. cbn. auto.
  - destruct (files_upload client pdf_path _) as [[g|e] p2]; cbn;
      exists [FilesUpload pdf_path]; cbn; auto.
Qed.

(** X5. Neither [cleanup_file] nor [upload_pdf] changes the model name. *)
Theorem upload_and_cleanup_keep_model (pdf_path : string) (st : St P) :
  llm_model (self (snd (cleanup_file client st))) = llm_model (self st)
  /\ llm_model (self (snd (upload_pdf client pdf_path st))) = llm_model (self st).
Proof.
  assert (Hc : llm_model (self (snd (cleanup_file client st))) = llm_model (self st)).
  { rewrite cleanup_file_run.
    destruct (uploaded_file_ref (self st)) as [f|]; cbv zeta; [|reflexivity].
    destruct (files_delete client (name f) (provider (world st))) as [[[]|e] p1];
      [reflexivity|]. destruct (is_APIError e); reflexivity. }
  split; [exact Hc|].
  rewrite upload_pdf_run.
  destruct (cleanup_file client st) as [[[]|e] st1]; cbn in Hc; [|exact Hc].
  cbv zeta.
  destruct (files_upload client pdf_path (provider (world st1))) as [[g|e] p2];
    exact Hc.
Qed.

(** X6. With a file held, [ask_question] makes exactly one call: generate,
    with the model name, the held file and the question as given.  The text
    of the response is returned as it is, an [APIError] becomes the string
    with its detail, and any other exception goes on. *)
Theorem ask_question_sends_held_file (question : string) (st : St P) (f : File) :
  uploaded_file_ref (self st) = Some f ->
  calls (world (snd (ask_question client question st)))
  = (calls (world st) ++ [GenerateContent (llm_model (self st)) f question])%list
  /\ fst (ask_question client question st)
     = match fst (generate_content client (llm_model (self st)) f question
                    (provider (world st))) with
       | Return text => Return text
       | Raise e =>
           if is_APIError e
           then Return ("Gemini API Error during generation: " ++ str e)
           else Raise e
       end.
Proof.
  intros H. rewrite ask_question_run, H. cbv zeta.
  destruct (generate_content client (llm_model (self st)) f question
              (provider (world st))) as [[text|e] p1]; cbn; auto.
  destruct (is_APIError e); cbn; auto.
Qed.

(** X7. After an [upload_pdf] that did not return [True], a question gets
    the no-document message and the provider is not called, also when a
    document had been held before the upload was tried. *)
Theorem failed_upload_then_no_document (pdf_path question : string) (st : St P) :
  fst (upload_pdf client pdf_path st) <> Return true ->
  ask_question client question (snd (upload_pdf client pdf_path st))
  = (Return no_document, snd (upload_pdf client pdf_path st)).
Proof.
  intros H. apply upload_pdf_no_file_unless_true in H.
  rewrite ask_question_run, H. reflexivity.
Qed.

(** X11. What an upload worker emits: the flag is true exactly when the
    session holds a file afterwards, and the message goes with the flag. *)
Theorem run_upload_reports_file_held
    (pdf_path message : string) (is_success : bool) (st : St P) :
  fst (run client (upload_pdf_task pdf_path) st) = Return (message, is_success) ->
  (is_success = true
   <-> exists f,
         uploaded_file_ref (self (snd (run client (upload_pdf_task pdf_path) st)))
         = Some f)
  /\ message
     = (if is_success
        then "PDF uploaded successfully. You can now ask questions."
        else "Error uploading PDF.").
Proof.
  unfold run, bind, ret.
  pose proof (upload_pdf_result_cases pdf_path st) as C.
  destruct (upload_pdf client pdf_path st) as [[b|e] st1]; cbn in *;
    [|discriminate].
  intros [= <- <-]. split; [|reflexivity].
  destruct C as [[Ht Hf]|[Hn Hf]].
  - injection Ht as ->. split; auto.
  - split.
    + intros ->. contradiction.
    + intros [f Hs]. congruence.
Qed.

(** X12. What a question worker emits always carries the flag [True]; the
    message is what [ask_question] returned, error texts included. *)
Theorem run_question_always_success
    (question message : string) (is_success : bool) (st : St P) :
  fst (run client (ask_question_task question) st) = Return (message, is_success) ->
  is_success = true
  /\ fst (ask_question client question st) = Return message
  /\ snd (run client (ask_question_task question) st)
     = snd (ask_question client question st).
Proof.
  unfold run, bind, ret.
  destruct (ask_question client question st) as [[text|e] st1]; cbn;
    [|discriminate].
  intros [= <- <-]. auto.
Qed.

End SessionRuns.

(** X1 at the first upload to the storing provider. *)
Lemma upload_pdf_success_stores_file_witness :
  fst (upload_pdf store_client "doc.pdf" (fresh_session [])) = Return true
  /\ uploaded_file_ref (self (snd (upload_pdf store_client "doc.pdf" (fresh_session []))))
     = Some (mkFile "files/doc.pdf")
  /\ provider (world (snd (upload_pdf store_client "doc.pdf" (fresh_session []))))
     = ["files/doc.pdf"]
  /\ stdout (world (snd (upload_pdf store_client "doc.pdf" (fresh_session []))))
     = stdout (world (fresh_session (@nil string))).
Proof.
  apply (upload_pdf_success_stores_file store_client "doc.pdf"
           (fresh_session []) (fresh_session []) (mkFile "files/doc.pdf")
           ["files/doc.pdf"]); reflexivity.
Defined.

(** X3 at a provider that cannot be reached. *)
Lemma upload_pdf_first_upload_witness :
  calls (world (snd (upload_pdf dropping_client "doc.pdf" (fresh_session 0))))
  = (calls (world (fresh_session 0)) ++ [FilesUpload "doc.pdf"])%list
  /\ fst (upload_pdf dropping_client "doc.pdf" (fresh_session 0))
     = Return (negb (raised (fst (files_upload dropping_client "doc.pdf"
                                    (provider (world (fresh_session 0))))))).
Proof.
  apply (upload_pdf_first_upload dropping_client "doc.pdf" (fresh_session 0)).
  reflexivity.
Defined.

(** X6 at a session that has uploaded its document. *)
Lemma ask_question_sends_held_file_witness :
  let st := snd (upload_pdf store_client "doc.pdf" (fresh_session [])) in
  calls (world (snd (ask_question store_client "What is X?" st)))
  = (calls (world st)
     ++ [GenerateContent (llm_model (self st)) (mkFile "files/doc.pdf") "What is X?"])%list
  /\ fst (ask_question store_client "What is X?" st)
     = match fst (generate_content store_client (llm_model (self st))
                    (mkFile "files/doc.pdf") "What is X?" (provider (world st))) with
       | Return text => Return text
       | Raise e =>
           if is_APIError e
           then Return ("Gemini API Error during generation: " ++ str e)
           else Raise e
       end.
Proof.
  intros st.
  apply (ask_question_sends_held_file store_client "What is X?" st
           (mkFile "files/doc.pdf")).
  reflexivity.
Defined.

(** X7 at a provider that cannot be reached. *)
Lemma failed_upload_then_no_document_witness :
  ask_question dropping_client "What is X?"
    (snd (upload_pdf dropping_client "doc.pdf" (fresh_session 0)))
  = (Return no_document, snd (upload_pdf dropping_client "doc.pdf" (fresh_session 0))).
Proof.
  apply (failed_upload_then_no_document dropping_client "doc.pdf" "What is X?"
           (fresh_session 0)).
  vm_compute. discriminate.
Defined.

(** X8 at a second upload. *)
Lemma upload_pdf_deletes_first_witness :
  let st := snd (upload_pdf store_client "old.pdf" (fresh_session [])) in
  exists rest,
    calls (world (snd (upload_pdf store_client "new.pdf" st)))
    = (calls (world st) ++ FilesDelete (name (mkFile "files/old.pdf")) :: rest)%list.
Proof.
  intros st.
  apply (upload_pdf_deletes_first store_client "new.pdf" st (mkFile "files/old.pdf")).
  reflexivity.
Defined.

(** X9 at a second upload whose delete call is answered with an [APIError]:
    the provider no longer stores the file the session holds. *)
Lemma upload_pdf_proceeds_after_api_error_witness :
  let st := holding_session (mkFile "files/old.pdf") (@nil string) in
  calls (world (snd (upload_pdf store_client "new.pdf" st)))
  = (calls (world st)
     ++ [FilesDelete (name (mkFile "files/old.pdf")); FilesUpload "new.pdf"])%list
  /\ raised (fst (upload_pdf store_client "new.pdf" st)) = false.
Proof.
  intros st.
  apply (upload_pdf_proceeds_after_api_error store_client "new.pdf" st
           (mkFile "files/old.pdf")); reflexivity.
Defined.

(** X10 at a delete call that meets a dropped connection. *)
Lemma cleanup_file_outcome_witness :
  let st := snd (upload_pdf dropping_client "doc.pdf" (fresh_session 1)) in
  fst (cleanup_file dropping_client st)
  = match fst (files_delete dropping_client (name (mkFile "files/doc.pdf"))
                 (provider (world st))) with
    | Return _ => Return tt
    | Raise e => if is_APIError e then Return tt else Raise e
    end.
Proof.
  intros st.
  apply (cleanup_file_outcome dropping_client st (mkFile "files/doc.pdf")).
  reflexivity.
Defined.

(** X11 at the first upload. *)
Lemma run_upload_reports_file_held_witness :
  (true = true
   <-> exists f,
         uploaded_file_ref
           (self (snd (run store_client (upload_pdf_task "doc.pdf") (fresh_session []))))
         = Some f)
  /\ "PDF uploaded successfully. You can now ask questions."
     = (if true
        then "PDF uploaded successfully. You can now ask questions."
        else "Error uploading PDF.").
Proof.
  apply (run_upload_reports_file_held store_client "doc.pdf"
           "PDF uploaded successfully. You can now ask questions." true
           (fresh_session [])).
  reflexivity.
Defined.

(** X12 at a question asked before any upload. *)
Lemma run_question_always_success_witness :
  true = true
  /\ fst (ask_question store_client "What is X?" (fresh_session []))
     = Return no_document
  /\ snd (run store_client (ask_question_task "What is X?") (fresh_session []))
     = snd (ask_question store_client "What is X?" (fresh_session [])).
Proof.
  apply (run_question_always_success store_client "What is X?" no_document true
           (fresh_session [])).
  reflexivity.
Defined.

(** ** The window, handler by handler *)

Lemma prefix_app (s t : string) : prefix s (s ++ t) = true.
Proof.
  induction s as [|c s IH]; cbn; [destruct t; reflexivity|].
  destruct (ascii_dec c c); congruence.
Qed.

Lemma prefix_text_append (doc text : string) : prefix doc (text_append doc text) = true.
Proof.
  unfold text_append. destruct doc as [|c doc]; [destruct text; reflexivity|].
  apply prefix_app.
Qed.

Lemma prefix_text_append_twice (doc t1 t2 : string) :
  prefix doc (text_append (text_append doc t1) t2) = true.
Proof.
  destruct doc as [|c doc].
  - destruct (text_append (text_append "" t1) t2); reflexivity.
  - change (text_append (String c doc) t1) with (String c doc ++ nl ++ t1).
    rewrite text_append_to_text by discriminate.
    rewrite string_app_assoc. apply prefix_app.
Qed.

(** [send_question] when it goes through. *)
Lemma send_question_ready (a : ChatbotApp) :
  strip (question_input a) <> "" ->
  pdf_processed a = true ->
  send_question a
  = start_worker (ask_question_task (strip (question_input a)))
      (chat_history_append thinking
         (set_ui_enabled false
            (question_input_setText ""
               (chat_history_append (nl ++ "User: " ++ strip (question_input a)) a)))).
Proof.
  intros Hq Hp. unfold send_question.
  destruct (strip (question_input a)) as [|c q]; [congruence|].
  rewrite Hp. reflexivity.
Qed.

(** X14. On a transcript in which the text [Gemini: Thinking...] does not
    occur, [handle_question_result] changes no text: all it does is enable
    the question field and the send button. *)
Theorem handle_question_result_without_placeholder
    (a : ChatbotApp) (response : string) (is_success : bool) :
  occurrences thinking (chat_history a) = 0 ->
  handle_question_result response is_success a = set_ui_enabled true a.
Proof.
  intros H. unfold handle_question_result.
  change (replace thinking ("Gemini: " ++ response) (chat_history a))
    with (replace_from thinking ("Gemini: " ++ response) 0 (chat_history a)).
  rewrite replace_from_no_occurrence by exact H.
  destruct a; reflexivity.
Qed.

(** X15. [send_question], [select_and_upload_pdf] and [handle_upload_result]
    only ever add to the end of the transcript: what was there before is
    the beginning of what is there afterwards. *)
Theorem transcript_only_grows
    (a : ChatbotApp) (file_name message : string) (is_success : bool) :
  prefix (chat_history a) (chat_history (send_question a)) = true
  /\ prefix (chat_history a) (chat_history (select_and_upload_pdf file_name a)) = true
  /\ prefix (chat_history a) (chat_history (handle_upload_result message is_success a))
     = true.
Proof.
  repeat split.
  - unfold send_question.
    destruct (strip (question_input a)) as [|c q];
      [exact (prefix_refl (chat_history a))|].
    destruct (pdf_processed a).
    + exact (prefix_text_append_twice (chat_history a)
               (nl ++ "User: " ++ String c q) thinking).
    + exact (prefix_refl (chat_history a)).
  - unfold select_and_upload_pdf. destruct file_name as [|c f].
    + exact (prefix_refl (chat_history a)).
    + exact (prefix_text_append (chat_history a)
               ("--- Uploading " ++ basename (String c f) ++ "... ---")).
  - unfold handle_upload_result.
    destruct is_success; exact (prefix_text_append (chat_history a) message).
Qed.

(** X16. The question field and the send button are enabled together when
    the window is built, and every handler keeps them together. *)
Theorem controls_stay_in_sync
    (a : ChatbotApp) (file_name message : string) (is_success : bool) :
  controls_in_sync a ->
  controls_in_sync init_ui
  /\ controls_in_sync (select_and_upload_pdf file_name a)
  /\ controls_in_sync (handle_upload_result message is_success a)
  /\ controls_in_sync (send_question a)
  /\ controls_in_sync (handle_question_result message is_success a).
Proof.
  unfold controls_in_sync. intros H. repeat split.
  - unfold select_and_upload_pdf. destruct file_name; [exact H | reflexivity].
  - unfold handle_upload_result. destruct is_success; [reflexivity | exact H].
  - unfold send_question. destruct (strip (question_input a)); [exact H|].
    destruct (pdf_processed a); [reflexivity | exact H].
Qed.

Lemma controls_stay_in_sync_witness :
  controls_in_sync init_ui
  /\ controls_in_sync (select_and_upload_pdf "/home/user/doc.pdf" init_ui)
  /\ controls_in_sync (handle_upload_result "Error uploading PDF." false init_ui)
  /\ controls_in_sync (send_question init_ui)
  /\ controls_in_sync (handle_question_result "Error uploading PDF." false init_ui).
Proof.
  apply (controls_stay_in_sync init_ui "/home/user/doc.pdf" "Error uploading PDF." false).
  reflexivity.
Defined.

Lemma handle_question_result_without_placeholder_witness :
  handle_question_result "X is Y" true init_ui = set_ui_enabled true init_ui.
Proof.
  apply (handle_question_result_without_placeholder init_ui "X is Y" true).
  vm_compute. reflexivity.
Defined.


(** ** From a click to the result *)

(** X17. An upload from the click to the delivered result, for a worker
    that does not end with an exception: the upload button is enabled
    again; [pdf_processed] says whether the session holds a file; and the
    question field and send button are enabled exactly when it does. *)
Theorem upload_round_trip {P : Type} (client : Client P)
    (file_name : string) (a : ChatbotApp) (st : St P) :
  file_name <> "" ->
  raised (fst (run client (upload_pdf_task file_name) st)) = false ->
  let s' := worker_finished client (select_and_upload_pdf file_name a, st) in
  upload_button_enabled (fst s') = true
  /\ (pdf_processed (fst s') = true
      <-> exists f, uploaded_file_ref (self (snd s')) = Some f)
  /\ question_input_enabled (fst s') = pdf_processed (fst s')
  /\ send_button_enabled (fst s') = pdf_processed (fst s').
Proof.
  intros Hn Hr s'. subst s'.
  destruct file_name as [|c f]; [congruence|].
  unfold worker_finished.
  change (worker (fst (select_and_upload_pdf (String c f) a, st)))
    with (Some (upload_pdf_task (String c f))).
  cbn [fst snd]. unfold run, bind, ret in *.
  pose proof (upload_pdf_result_cases client (String c f) st) as C.
  destruct (upload_pdf client (String c f) st) as [[ok|e] st1];
    cbn [fst snd] in *; [|discriminate].
  unfold on_result.
  change (worker (select_and_upload_pdf (String c f) a))
    with (Some (upload_pdf_task (String c f))).
  cbv iota beta.
  destruct C as [[Ht Hf]|[Hf Hnone]].
  - injection Ht as ->. repeat split; auto.
  - destruct ok; [congruence|]. repeat split; try reflexivity.
    + discriminate.
    + intros [g Hg]. congruence.
Qed.

(** X18. A question from the send button to the delivered result, in a
    window with [pdf_processed] set and for a worker that does not end with
    an exception: the question field is emptied and enabled again with the
    send button, [pdf_processed] stays set, the session's fields are as
    before, and with a file held the one call made is the generate call
    with that file and the stripped text of the question field. *)
Theorem question_round_trip {P : Type} (client : Client P)
    (a : ChatbotApp) (st : St P) :
  strip (question_input a) <> "" ->
  pdf_processed a = true ->
  raised (fst (run client (ask_question_task (strip (question_input a))) st)) = false ->
  let s' := worker_finished client (send_question a, st) in
  question_input (fst s') = ""
  /\ question_input_enabled (fst s') = true
  /\ send_button_enabled (fst s') = true
  /\ pdf_processed (fst s') = true
  /\ upload_button_enabled (fst s') = upload_button_enabled a
  /\ self (snd s') = self st
  /\ forall f,
       uploaded_file_ref (self st) = Some f ->
       calls (world (snd s'))
       = (calls (world st)
          ++ [GenerateContent (llm_model (self st)) f (strip (question_input a))])%list.
Proof.
  intros Hq Hp Hr s'. subst s'.
  rewrite (send_question_ready a Hq Hp).
  set (q := strip (question_input a)) in *. clearbody q.
  unfold worker_finished.
  change (worker (fst (start_worker (ask_question_task q) ?[x], st)))
    with (Some (ask_question_task q)).
  cbn [fst snd]. unfold run, bind, ret in *.
  pose proof (ask_question_run client q st) as R.
  destruct (ask_question client q st) as [[text|e] st1];
    cbn [fst snd] in *; [|discriminate].
  unfold on_result.
  change (worker (start_worker (ask_question_task q) ?[y]))
    with (Some (ask_question_task q)).
  cbv iota beta.
  assert (Hs : self st1 = self st
               /\ forall f, uploaded_file_ref (self st) = Some f ->
                    calls (world st1)
                    = (calls (world st)
                       ++ [GenerateContent (llm_model (self st)) f q])%list).
  { destruct (uploaded_file_ref (self st)) as [g|].
    - cbv zeta in R.
      destruct (generate_content client (llm_model (self st)) g q
                  (provider (world st))) as [[t|e] p1].
      + injection R as _ ->. split; [reflexivity|]. intros f [= <-]. reflexivity.
      + destruct (is_APIError e); [|discriminate].
        injection R as _ ->. split; [reflexivity|]. intros f [= <-]. reflexivity.
    - injection R as _ ->. split; [reflexivity|]. intros f Hf. discriminate. }
  destruct Hs as [Hs1 Hs2].
  repeat split; try assumption; try reflexivity.
Qed.

(** White space only is what [strip] reduces to nothing. *)
Lemma lstrip_empty_iff (s : string) : lstrip s = "" <-> all_space s = true.
Proof.
  induction s as [|c s IH]; cbn; [tauto|].
  destruct (isspace c); cbn; [exact IH|]. split; discriminate.
Qed.

Lemma lstrip_head (s : string) (c : ascii) (r : string) :
  lstrip s = String c r -> isspace c = false.
Proof.
  induction s as [|b s IH]; cbn; [discriminate|].
  destruct (isspace b) eqn:E; [exact IH|].
  intros [= <- _]. exact E.
Qed.

Lemma strip_empty_iff (s : string) : strip s = "" <-> all_space s = true.
Proof.
  unfold strip. rewrite <- lstrip_empty_iff.
  destruct (lstrip s) as [|c r] eqn:E; [cbn; tauto|].
  apply lstrip_head in E. cbn. rewrite E.
  destruct (rstrip r); split; discriminate.
Qed.

(** X21. [send_question] leaves the window exactly as it was if and only if
    the question field holds nothing but white space. *)
Theorem send_question_noop_iff_blank (a : ChatbotApp) :
  send_question a = a <-> all_space (question_input a) = true.
Proof.
  rewrite <- strip_empty_iff. split.
  - intros H. destruct (strip (question_input a)) as [|c q] eqn:E; [reflexivity|].
    exfalso. unfold send_question in H. rewrite E in H.
    apply (f_equal (fun w => List.length (gui w))) in H.
    destruct (pdf_processed a); cbn in H; rewrite length_app in H; cbn in H; lia.
  - intros H. unfold send_question. rewrite H. reflexivity.
Qed.

(** The file name after the last slash. *)
Lemma after_last_slash_free (f cur : string) :
  slash_free f = true -> after_last_slash cur f = cur ++ f.
Proof.
  revert cur. induction f as [|c f IH]; intros cur H; cbn.
  - symmetry. apply string_app_nil_r.
  - cbn in H. apply andb_true_iff in H as [Hc Hf].
    apply negb_true_iff in Hc. rewrite Hc.
    rewrite IH by exact Hf. apply string_app_assoc.
Qed.

Lemma after_last_slash_path (d f cur : string) :
  slash_free f = true -> after_last_slash cur (d ++ "/" ++ f) = f.
Proof.
  intros H. revert cur. induction d as [|c d IH]; intros cur; cbn.
  - apply (after_last_slash_free f "" H).
  - destruct (Ascii.eqb c "/"); apply IH.
Qed.

Lemma basename_of_path (d f : string) :
  slash_free f = true -> basename (d ++ "/" ++ f) = f.
Proof. intros H. apply after_last_slash_path. exact H. Qed.

(** X20. For a path [d/f] picked in the dialog, [select_and_upload_pdf] shows
    only the file name [f] in the label and in the transcript line, hands
    the whole path to the worker, and disables the upload button, the
    question field and the send button. *)
Theorem select_and_upload_pdf_shows_file_name (d f : string) (a : ChatbotApp) :
  slash_free f = true ->
  let a' := select_and_upload_pdf (d ++ "/" ++ f) a in
  pdf_label a' = "Uploading: " ++ f ++ "..."
  /\ chat_history a' = text_append (chat_history a) ("--- Uploading " ++ f ++ "... ---")
  /\ worker a' = Some (upload_pdf_task (d ++ "/" ++ f))
  /\ gui a' = (gui a ++ [WorkerStart (upload_pdf_task (d ++ "/" ++ f))])%list
  /\ upload_button_enabled a' = false
  /\ question_input_enabled a' = false
  /\ send_button_enabled a' = false
  /\ pdf_processed a' = pdf_processed a.
Proof.
  intros H a'. subst a'. unfold select_and_upload_pdf.
  pose proof (basename_of_path d f H) as B.
  destruct (d ++ "/" ++ f) as [|c p] eqn:E.
  - destruct d; discriminate.
  - cbn [pdf_label chat_history worker gui upload_button_enabled
         question_input_enabled send_button_enabled pdf_processed
         start_worker emit chat_history_append set_ui_enabled
         upload_button_setEnabled pdf_label_setText].
    rewrite B. repeat split.
Qed.

(** X19. With a file held, [cleanup_file] makes exactly one call, the delete
    of that file by name, and prints one line: that the file was cleaned up
    when the call returned, the error when it raised an [APIError], and
    nothing when another exception goes through. *)
Theorem cleanup_file_deletes_and_logs {P : Type} (client : Client P)
    (st : St P) (f : File) :
  uploaded_file_ref (self st) = Some f ->
  calls (world (snd (cleanup_file client st)))
  = (calls (world st) ++ [FilesDelete (name f)])%list
  /\ provider (world (snd (cleanup_file client st)))
     = snd (files_delete client (name f) (provider (world st)))
  /\ stdout (world (snd (cleanup_file client st)))
     = (stdout (world st)
        ++ match fst (files_delete client (name f) (provider (world st))) with
           | Return _ => [("Cleaned up file: " ++ name f)%string]
           | Raise e =>
               if is_APIError e then [("Error cleaning up file: " ++ str e)%string] else []
           end)%list.
Proof.
  intros H. rewrite cleanup_file_run, H. cbv zeta.
  destruct (files_delete client (name f) (provider (world st))) as [[[]|e] p1];
    cbn [fst snd]; [auto|].
  destruct (is_APIError e); cbn; rewrite ?app_nil_r; auto.
Qed.

Lemma cleanup_file_deletes_and_logs_witness :
  let st := snd (upload_pdf store_client "doc.pdf" (fresh_session [])) in
  let f := mkFile "files/doc.pdf" in
  calls (world (snd (cleanup_file store_client st)))
  = (calls (world st) ++ [FilesDelete (name f)])%list
  /\ provider (world (snd (cleanup_file store_client st)))
     = snd (files_delete store_client (name f) (provider (world st)))
  /\ stdout (world (snd (cleanup_file store_client st)))
     = (stdout (world st)
        ++ match fst (files_delete store_client (name f) (provider (world st))) with
           | Return _ => [("Cleaned up file: " ++ name f)%string]
           | Raise e =>
               if is_APIError e then [("Error cleaning up file: " ++ str e)%string] else []
           end)%list.
Proof.
  intros st f.
  apply (cleanup_file_deletes_and_logs store_client st f).
  reflexivity.
Defined.

Lemma upload_round_trip_witness :
  let s' := worker_finished store_client
              (select_and_upload_pdf "/home/user/doc.pdf" init_ui, fresh_session []) in
  upload_button_enabled (fst s') = true
  /\ (pdf_processed (fst s') = true
      <-> exists f, uploaded_file_ref (self (snd s')) = Some f)
  /\ question_input_enabled (fst s') = pdf_processed (fst s')
  /\ send_button_enabled (fst s') = pdf_processed (fst s').
Proof.
  assert (Hn : "/home/user/doc.pdf" <> "") by discriminate.
  assert (Hr : raised (fst (run store_client (upload_pdf_task "/home/user/doc.pdf")
                              (fresh_session []))) = false)
    by (vm_compute; reflexivity).
  exact (upload_round_trip store_client "/home/user/doc.pdf" init_ui
           (fresh_session []) Hn Hr).
Defined.

Lemma question_round_trip_witness :
  let a := question_input_setText "  What is X? " (fst (ready "X is Y")) in
  let st := snd (ready "X is Y") in
  let s' := worker_finished (answering_client "X is Y") (send_question a, st) in
  question_input (fst s') = ""
  /\ question_input_enabled (fst s') = true
  /\ send_button_enabled (fst s') = true
  /\ pdf_processed (fst s') = true
  /\ upload_button_enabled (fst s') = upload_button_enabled a
  /\ self (snd s') = self st
  /\ forall f,
       uploaded_file_ref (self st) = Some f ->
       calls (world (snd s'))
       = (calls (world st)
          ++ [GenerateContent (llm_model (self st)) f (strip (question_input a))])%list.
Proof.
  intros a st.
  assert (Hq : strip (question_input a) <> "") by (vm_compute; discriminate).
  assert (Hp : pdf_processed a = true) by (vm_compute; reflexivity).
  assert (Hr : raised (fst (run (answering_client "X is Y")
                              (ask_question_task (strip (question_input a))) st))
               = false)
    by (vm_compute; reflexivity).
  exact (question_round_trip (answering_client "X is Y") a st Hq Hp Hr).
Defined.

Lemma select_and_upload_pdf_shows_file_name_witness :
  let a' := select_and_upload_pdf ("/home/user" ++ "/" ++ "doc.pdf") init_ui in
  pdf_label a' = "Uploading: " ++ "doc.pdf" ++ "..."
  /\ chat_history a'
     = text_append (chat_history init_ui) ("--- Uploading " ++ "doc.pdf" ++ "... ---")
  /\ worker a' = Some (upload_pdf_task ("/home/user" ++ "/" ++ "doc.pdf"))
  /\ gui a'
     = (gui init_ui
        ++ [WorkerStart (upload_pdf_task ("/home/user" ++ "/" ++ "doc.pdf"))])%list
  /\ upload_button_enabled a' = false
  /\ question_input_enabled a' = false
  /\ send_button_enabled a' = false
  /\ pdf_processed a' = pdf_processed init_ui.
Proof.
  apply (select_and_upload_pdf_shows_file_name "/home/user" "doc.pdf" init_ui).
  reflexivity.
Defined.
